(** * Knowledge retrieval module: the [Retriever] class

    A shallow embedding of [knowledge/retriever.py] and of its unit test
    [tests/test_retriever.py].

    Python text values are modelled as [string]; a Python list of text as
    [list string].  A method call is a computation over an explicit
    interpreter state (the object heap and the output stream) that either
    returns a value or raises, so that "does not raise" and "leaves the
    state alone" are statements about the embedded code. *)

From Stdlib Require Import String Ascii List Bool.
From Stdlib Require Import ZArith Lia.
Import ListNotations.
Open Scope list_scope.
Open Scope string_scope.

(** ** Text operations of the host language *)

Module PyStr.

(** [s.startswith(p)] *)
Definition startswith (s p : string) : bool := String.prefix p s.

(** [s[n:]] for a non-negative [n]; past the end the slice is empty. *)
Fixpoint slice_from (n : nat) (s : string) : string :=
  match n, s with
  | O, _ => s
  | S _, EmptyString => EmptyString
  | S k, String _ rest => slice_from k rest
  end.

(** [needle in hay]: some suffix of [hay] starts with [needle]. *)
Fixpoint contains (needle hay : string) : bool :=
  match hay with
  | EmptyString => String.prefix needle EmptyString
  | String _ rest => String.prefix needle hay || contains needle rest
  end.

(** The declarative reading of "is a substring of". *)
Definition substring_of (needle hay : string) : Prop :=
  exists pre post, hay = pre ++ needle ++ post.

(** The pieces of a formatted string literal: literal text, or a replacement
    field [{e}] without conversion or format specification whose expression
    evaluated to the text [v]. *)
Inductive fpiece : Type :=
| Literal (s : string)
| Replacement (v : string).

(** [format(v, "")] on a text value is the value itself. *)
Definition format_piece (p : fpiece) : string :=
  match p with
  | Literal s => s
  | Replacement v => v
  end.

(** A formatted string literal joins its formatted pieces, left to right. *)
Definition joined_str (ps : list fpiece) : string :=
  fold_right (fun p acc => format_piece p ++ acc) EmptyString ps.

End PyStr.

(** ** Computations: interpreter state and exceptions *)

Module Py.

Definition ref := nat.

(** An instance: the name of its class and its attribute dictionary. *)
Record obj : Type := mkObj {
  class_name : string;
  attrs : list (string * string)
}.

Record world : Type := mkWorld {
  heap : list (ref * obj);
  stdout : list string
}.

Inductive exn : Type :=
| AssertionError
| IndexError
| TypeError.

Inductive outcome (A : Type) : Type :=
| Returned (a : A)
| Raised (e : exn).

Arguments Returned {A} a.
Arguments Raised {A} e.

Definition M (A : Type) : Type := world -> outcome A * world.

Definition ret {A : Type} (a : A) : M A := fun w => (Returned a, w).

Definition raise {A : Type} (e : exn) : M A := fun w => (Raised e, w).

Definition bind {A B : Type} (c : M A) (k : A -> M B) : M B :=
  fun w =>
    match c w with
    | (Returned a, w') => k a w'
    | (Raised e, w') => (Raised e, w')
    end.

Fixpoint heap_lookup (r : ref) (h : list (ref * obj)) : option obj :=
  match h with
  | [] => None
  | (r', o) :: rest => if Nat.eqb r r' then Some o else heap_lookup r rest
  end.

(** Instantiating a class allocates a fresh object. *)
Definition alloc (o : obj) : M ref :=
  fun w =>
    let r := List.length (heap w) in
    (Returned r, {| heap := (r, o) :: heap w; stdout := stdout w |}).

(** The [assert] statement. *)
Definition py_assert (b : bool) : M unit :=
  if b then ret tt else raise AssertionError.

(** The value a computation returned, if it returned. *)
Definition returned {A : Type} (o : outcome A) : option A :=
  match o with
  | Returned a => Some a
  | Raised _ => None
  end.

(** The only element of a list that has exactly one. *)
Definition sole {A : Type} (l : list A) : option A :=
  match l with
  | [x] => Some x
  | _ => None
  end.

End Py.

(** ** Sequence operations the test applies to the result *)

Module PySeq.

(** Truth value of a list: a list is true when it is not empty. *)
Definition truthy {A : Type} (l : list A) : bool :=
  match l with
  | [] => false
  | _ :: _ => true
  end.

(** [l[i]]: a negative index counts from the end; an index outside the list
    raises [IndexError]. *)
Definition getitem (l : list string) (i : Z) : Py.M string :=
  let n := Z.of_nat (List.length l) in
  let j := if (i <? 0)%Z then (i + n)%Z else i in
  if ((j <? 0)%Z || (n <=? j)%Z)%bool then Py.raise Py.IndexError
  else match nth_error l (Z.to_nat j) with
       | Some x => Py.ret x
       | None => Py.raise Py.IndexError
       end.

End PySeq.

Notation "x <- c ;; k" := (Py.bind c (fun x => k))
  (at level 61, c at next level, right associativity).

Import PyStr Py PySeq.

(** ** The module under verification *)

(** [class Retriever] declares no attributes: a new instance has an empty
    attribute dictionary. *)
Definition Retriever : M ref :=
  alloc {| class_name := "Retriever"; attrs := [] |}.

(** [Retriever.retrieve(self, query)]:
    [return [f"Result for {query}"]] *)
Definition retrieve (self : ref) (query : string) : M (list string) :=
  ret [joined_str [Literal "Result for "; Replacement query]].

(** The sole element of what a call returned. *)
Definition sole_result (r : outcome (list string) * world) : option string :=
  match returned (fst r) with
  | Some l => sole l
  | None => None
  end.

(** [test_retrieve]:
    [r = Retriever(); results = r.retrieve("test");
     assert results and "test" in results[0]] *)
Definition test_retrieve : M unit :=
  r <- Retriever ;;
  results <- retrieve r "test" ;;
  py_assert (match results with
             | [] => false
             | first :: _ => contains "test" first
             end).

(** The condition asserted by [test_retrieve], as a function of the list it
    inspects: [results and "test" in results[0]].  [and] evaluates its right
    operand only when the left one is true. *)
Definition test_condition (results : list string) : M bool :=
  if truthy results
  then first <- getitem results 0 ;; ret (contains "test" first)
  else ret false.

(** ** Facts about the text operations *)

Section TextFacts.

Lemma append_empty_r (s : string) : s ++ "" = s.
Proof.
  induction s as [|c s IH]; simpl; [reflexivity | now rewrite IH].
Qed.

Lemma append_assoc (a b c : string) : (a ++ b) ++ c = a ++ (b ++ c).
Proof.
  induction a as [|x a IH]; simpl; [reflexivity | now rewrite IH].
Qed.

Lemma append_inv_head (p a b : string) : p ++ a = p ++ b -> a = b.
Proof.
  induction p as [|c p IH]; simpl; intros H.
  - exact H.
  - injection H as H. now apply IH.
Qed.

Lemma prefix_append (p t : string) : String.prefix p (p ++ t) = true.
Proof.
  induction p as [|c p IH]; simpl.
  - now destruct t.
  - destruct (ascii_dec c c) as [_|E]; [exact IH | now elim E].
Qed.

Lemma prefix_split (p s : string) :
  String.prefix p s = true -> exists t, s = p ++ t.
Proof.
  revert s; induction p as [|c p IH]; intros s H.
  - now exists s.
  - destruct s as [|d s]; simpl in H; [discriminate|].
    destruct (ascii_dec c d) as [->|_]; [|discriminate].
    destruct (IH s H) as [t ->]. now exists t.
Qed.

Lemma startswith_append (p t : string) : startswith (p ++ t) p = true.
Proof. apply prefix_append. Qed.

Lemma slice_from_append (p t : string) :
  slice_from (String.length p) (p ++ t) = t.
Proof.
  induction p as [|c p IH]; simpl; [now destruct t | exact IH].
Qed.

Lemma prefix_contains (n h : string) :
  String.prefix n h = true -> contains n h = true.
Proof.
  destruct h as [|c h]; simpl; intros H; [exact H | now rewrite H].
Qed.

Lemma contains_skip (n pre h : string) :
  contains n h = true -> contains n (pre ++ h) = true.
Proof.
  intros H; induction pre as [|c pre IH]; simpl; [exact H|].
  rewrite IH. apply orb_true_r.
Qed.

(** The executable membership test agrees with the declarative one. *)
Lemma contains_substring_of (n h : string) :
  contains n h = true <-> substring_of n h.
Proof.
  split.
  - induction h as [|c h IH]; cbn [contains]; intros H.
    + destruct (prefix_split _ _ H) as [t Ht]. now exists "", t.
    + apply orb_true_iff in H as [H|H].
      * destruct (prefix_split _ _ H) as [t Ht]. now exists "", t.
      * destruct (IH H) as (pre & post & ->). now exists (String c pre), post.
  - intros (pre & post & ->).
    apply contains_skip, prefix_contains, prefix_append.
Qed.

End TextFacts.

(** ** What [retrieve] computes *)

(** The formatted string literal of [retrieve], evaluated. *)
Lemma retrieve_fstring (query : string) :
  joined_str [Literal "Result for "; Replacement query] = "Result for " ++ query.
Proof.
  unfold joined_str; cbn [fold_right format_piece].
  now rewrite append_empty_r.
Qed.

Lemma retrieve_run (self : ref) (query : string) (w : world) :
  retrieve self query w = (Returned ["Result for " ++ query], w).
Proof.
  unfold retrieve, ret. now rewrite retrieve_fstring.
Qed.

(** The repository's own unit test passes from any initial state. *)
Lemma test_retrieve_passes (w : world) : fst (test_retrieve w) = Returned tt.
Proof. reflexivity. Qed.

(** Running the method on small inputs. *)
Example retrieve_rocq (w : world) :
  fst (retrieve 0 "rocq" w) = Returned ["Result for rocq"].
Proof. reflexivity. Qed.

Example retrieve_contains_blank :
  contains " " "Result for " = true /\ contains "x" "Result for " = false.
Proof. split; reflexivity. Qed.

(** ** The specified properties *)

(** C1: for every text input [q], the sole element of the sequence returned
    by [retrieve q] is exactly the concatenation ["Result for " ++ q]. *)
Theorem retrieve_sole_element (self : ref) (q : string) (w : world) :
  sole_result (retrieve self q w) = Some ("Result for " ++ q).
Proof.
  rewrite retrieve_run. reflexivity.
Qed.

(** C2: for every text input [q], [retrieve q] returns an ordered sequence
    of length exactly 1. *)
Theorem retrieve_length_one (self : ref) (q : string) (w : world) :
  exists l, fst (retrieve self q w) = Returned l /\ List.length l = 1.
Proof.
  rewrite retrieve_run. eexists; split; reflexivity.
Qed.

(** C3: [retrieve] is deterministic: two calls with the same query return
    equal result sequences, whatever instance receives the call and whatever
    state the interpreter is in at each call; in particular two calls made
    one after the other return equal sequences. *)
Theorem retrieve_deterministic (q : string) :
  (forall self1 self2 w1 w2,
      fst (retrieve self1 q w1) = fst (retrieve self2 q w2)) /\
  (forall self w,
      exists l,
        fst ((r1 <- retrieve self q ;;
              r2 <- retrieve self q ;;
              ret (r1, r2)) w) = Returned (l, l)).
Proof.
  split.
  - intros. now rewrite !retrieve_run.
  - intros. unfold bind. rewrite !retrieve_run. eexists; reflexivity.
Qed.

(** C4: [retrieve] is total: for every text input [q], the empty string
    included, the call returns a value and raises no exception. *)
Theorem retrieve_total (self : ref) (w : world) :
  (forall q,
      (exists l, fst (retrieve self q w) = Returned l) /\
      (forall e, fst (retrieve self q w) <> Raised e)) /\
  (exists l, fst (retrieve self "" w) = Returned l).
Proof.
  split.
  - intros q. rewrite retrieve_run. split.
    + eexists; reflexivity.
    + intros e; discriminate.
  - rewrite retrieve_run. eexists; reflexivity.
Qed.

(** C5: for every text input [q], the sole element of [retrieve q] contains
    [q] as a substring, both for the executable membership test [q in x] and
    for its declarative reading. *)
Theorem retrieve_contains_query (self : ref) (q : string) (w : world) :
  exists x,
    sole_result (retrieve self q w) = Some x /\
    contains q x = true /\
    substring_of q x.
Proof.
  rewrite retrieve_run. eexists; split; [reflexivity|].
  assert (S : substring_of q ("Result for " ++ q)).
  { exists "Result for ", "". now rewrite append_empty_r. }
  split; [now apply contains_substring_of | exact S].
Qed.

(** C6: [retrieve] is stateless and has no observable side effect: the
    interpreter state after the call (every object of the heap, the receiving
    [Retriever] among them, and the output stream) is the state before the
    call, so that only the returned sequence is observable. *)
Theorem retrieve_no_side_effect (self : ref) (q : string) (w : world) :
  snd (retrieve self q w) = w /\
  heap_lookup self (heap (snd (retrieve self q w))) = heap_lookup self (heap w) /\
  stdout (snd (retrieve self q w)) = stdout w.
Proof.
  rewrite retrieve_run. repeat split.
Qed.

(** C7: [retrieve "test"] returns exactly the single-element sequence
    [["Result for test"]]. *)
Theorem retrieve_test (self : ref) (w : world) :
  fst (retrieve self "test" w) = Returned ["Result for test"].
Proof.
  rewrite retrieve_run. reflexivity.
Qed.

(** C8: [retrieve ""] (the empty query) returns exactly the single-element
    sequence [["Result for "]]. *)
Theorem retrieve_empty (self : ref) (w : world) :
  fst (retrieve self "" w) = Returned ["Result for "].
Proof.
  rewrite retrieve_run. reflexivity.
Qed.

(** C9: [retrieve] is injective on queries: distinct queries [q1] and [q2]
    give distinct results, whatever instance and state each call runs in. *)
Theorem retrieve_injective (self1 self2 : ref) (w1 w2 : world) (q1 q2 : string) :
  q1 <> q2 ->
  fst (retrieve self1 q1 w1) <> fst (retrieve self2 q2 w2).
Proof.
  intros Hne. rewrite !retrieve_run. cbn [fst]. intros Heq.
  apply Hne, (append_inv_head "Result for "). congruence.
Qed.

Lemma retrieve_injective_witness :
  "storage" <> "index" /\
  fst (retrieve 0 "storage" (mkWorld [] [])) <>
  fst (retrieve 1 "index" (mkWorld [] ["log"])).
Proof.
  split.
  - discriminate.
  - apply (retrieve_injective 0 1 (mkWorld [] []) (mkWorld [] ["log"])
             "storage" "index").
    discriminate.
Defined.

(** C10: the query round-trips through the result: the sole element of
    [retrieve q] starts with the 11-character prefix ["Result for "], and
    dropping those 11 characters from it yields exactly [q]. *)
Theorem retrieve_roundtrip (self : ref) (q : string) (w : world) :
  String.length "Result for " = 11 /\
  exists x,
    sole_result (retrieve self q w) = Some x /\
    startswith x "Result for " = true /\
    slice_from 11 x = q.
Proof.
  split; [reflexivity|].
  rewrite retrieve_run. eexists; split; [reflexivity|]. split.
  - apply startswith_append.
  - exact (slice_from_append "Result for " q).
Qed.

(** ** Further properties of the module and of its test *)

Section MoreFacts.

Lemma length_append (a b : string) :
  String.length (a ++ b) = String.length a + String.length b.
Proof.
  induction a as [|c a IH]; simpl; [reflexivity | now rewrite IH].
Qed.

Lemma contains_app_l (n p t : string) :
  contains n p = true -> contains n (p ++ t) = true.
Proof.
  intros H. apply contains_substring_of in H as (a & b & ->).
  apply contains_substring_of. exists a, (b ++ t).
  now rewrite !append_assoc.
Qed.

(** Indexing a one-element list: only [0] and [-1] are in range. *)
Lemma getitem_singleton (x : string) (i : Z) (w : world) :
  getitem [x] i w =
  (if ((i =? 0)%Z || (i =? -1)%Z)%bool then Returned x else Raised IndexError, w).
Proof.
  unfold getitem. cbn [List.length Z.of_nat Pos.of_succ_nat].
  destruct (Z.ltb_spec i 0) as [Hneg|Hpos].
  - destruct (Z.eqb_spec i (-1)) as [->|Hm1].
    + reflexivity.
    + replace (i =? 0)%Z with false by (symmetry; apply Z.eqb_neq; lia).
      replace (i + 1 <? 0)%Z with true by (symmetry; apply Z.ltb_lt; lia).
      reflexivity.
  - replace (i <? 0)%Z with false by (symmetry; apply Z.ltb_ge; lia).
    destruct (Z.eqb_spec i 0) as [->|H0].
    + reflexivity.
    + replace (i =? -1)%Z with false by (symmetry; apply Z.eqb_neq; lia).
      replace (1 <=? i)%Z with true by (symmetry; apply Z.leb_le; lia).
      reflexivity.
Qed.

(** Index [0] of a list that has a first element is that element. *)
Lemma getitem_head (x : string) (rest : list string) (w : world) :
  getitem (x :: rest) 0 w = (Returned x, w).
Proof.
  unfold getitem. change (0 <? 0)%Z with false. cbv iota.
  destruct (Z.leb_spec (Z.of_nat (List.length (x :: rest))) 0) as [H|H].
  - cbn [List.length] in H. lia.
  - reflexivity.
Qed.

End MoreFacts.


(** X2: the condition the test asserts never raises, whatever list it is
    given: on the empty list it is false without indexing, and on a list with
    a first element it is the membership test on that element. *)
Theorem test_condition_safe (results : list string) (w : world) :
  test_condition results w =
  (Returned (match results with
             | [] => false
             | first :: _ => contains "test" first
             end), w).
Proof.
  destruct results as [|x rest]; [reflexivity|].
  unfold test_condition, truthy, bind.
  rewrite getitem_head. reflexivity.
Qed.

(** X3: the text returned for [q] is exactly 11 characters longer than [q]. *)
Theorem retrieve_result_length (self : ref) (q : string) (w : world) :
  exists x,
    sole_result (retrieve self q w) = Some x /\
    String.length x = 11 + String.length q.
Proof.
  rewrite retrieve_run. eexists; split; [reflexivity|].
  now rewrite length_append.
Qed.

(** X4: [retrieve] never hands the query back unchanged and never returns an
    empty text or an empty list. *)
Theorem retrieve_never_echoes (self : ref) (q : string) (w : world) :
  fst (retrieve self q w) <> Returned [q] /\
  fst (retrieve self q w) <> Returned [""] /\
  fst (retrieve self q w) <> Returned [].
Proof.
  rewrite retrieve_run. cbn [fst]. repeat split; intros H.
  - assert (E : "Result for " ++ q = q) by congruence.
    apply (f_equal String.length) in E. rewrite length_append in E.
    cbn [String.length] in E. lia.
  - discriminate.
  - discriminate.
Qed.

(** X5: every text that occurs in the query, and every text that occurs in
    the fixed prefix, occurs in the returned text; so a membership assertion
    like the test's holds for any needle taken from the query. *)
Theorem retrieve_contains_needle (self : ref) (q needle : string) (w : world) :
  contains needle q = true \/ contains needle "Result for " = true ->
  exists x,
    sole_result (retrieve self q w) = Some x /\
    contains needle x = true.
Proof.
  intros H. rewrite retrieve_run. eexists; split; [reflexivity|].
  destruct H as [H|H].
  - now apply contains_skip.
  - now apply contains_app_l.
Qed.

Lemma retrieve_contains_needle_witness :
  (contains "now" "knowledge" = true \/ contains "now" "Result for " = true) /\
  exists x,
    sole_result (retrieve 0 "knowledge" (mkWorld [] [])) = Some x /\
    contains "now" x = true.
Proof.
  split.
  - left; reflexivity.
  - apply (retrieve_contains_needle 0 "knowledge" "now" (mkWorld [] [])).
    left; reflexivity.
Defined.

(** X6: indexing the returned list: indices [0] and [-1] give the text
    ["Result for " ++ q]; every other index raises [IndexError]. *)
Theorem retrieve_getitem (self : ref) (q : string) (i : Z) (w : world) :
  fst ((results <- retrieve self q ;; getitem results i) w) =
  if ((i =? 0)%Z || (i =? -1)%Z)%bool
  then Returned ("Result for " ++ q)
  else Raised IndexError.
Proof.
  unfold bind. rewrite retrieve_run, getitem_singleton. reflexivity.
Qed.

(** X7: a returned text is itself a valid query: retrieving it again puts a
    second prefix in front of the first and adds another 11 characters. *)
Theorem retrieve_twice (self : ref) (q : string) (w : world) :
  exists y,
    fst ((r1 <- retrieve self q ;;
          x <- getitem r1 0 ;;
          retrieve self x) w) = Returned [y] /\
    y = "Result for " ++ "Result for " ++ q /\
    String.length y = 22 + String.length q.
Proof.
  unfold bind. rewrite retrieve_run, getitem_singleton.
  cbn [Z.eqb orb]. rewrite retrieve_run. cbn [fst].
  eexists; split; [reflexivity|]. split; [reflexivity|].
  now rewrite !length_append.
Qed.
